(** * PbEuSe: the gap model and the Bauer data sets of [PbEuSe.py]

    [PbEuSe.py] is a driver script.  The two functions it defines itself are

    - [Eg_func(x, T)], the empirical band gap in eV, and
    - [GetExpData(data_i, scale_factor)], the selector of one of the four
      exchange-parameter rows of Bauer's Table 3.

    Python numbers are duck typed, so the arithmetic of [Eg_func] is read
    twice below: in [Binary64], as CPython evaluates it on [float] objects
    (IEEE 754 binary64, the kernel's primitive floats, with the exceptions
    the interpreter raises), and in [Exact], over the real numbers, which is
    what the formula denotes.  [GetExpData] only subtracts and multiplies
    literals, so its binary64 reading is exact to the last bit. *)

From Stdlib Require Import ZArith List String Bool Lia.
From Stdlib Require Import Floats.
From Stdlib Require Import Reals Lra.
Import ListNotations.

Set Warnings "-inexact-float".

(** ** The interpreter: console output and exceptions *)

Module Py.

(** The exceptions the two functions can raise. *)
Inductive exn : Type :=
| ValueError (msg : string)
| OverflowError (msg : string).

(** A fragment of a printed line.  [str(data_i)] and [str(scale_factor)]
    are kept symbolic: the text [str] produces for a float is not needed
    by any property below. *)
Inductive piece : Type :=
| Lit (s : string)
| StrInt (n : Z)
| StrFloat (f : float).

(** One call of [print]: the concatenated fragments of its argument. *)
Definition line : Type := list piece.

(** Standard output, oldest line first. *)
Definition console : Type := list line.

Inductive outcome (A : Type) : Type :=
| Return (a : A)
| Raise (e : exn).
Arguments Return {A} a.
Arguments Raise {A} e.

(** A computation reads the console printed so far and gives its outcome
    with the console it leaves; what was printed before an exception
    stays printed. *)
Definition M (A : Type) : Type := console -> outcome A * console.

Definition ret {A} (a : A) : M A := fun out => (Return a, out).

Definition bind {A B} (c : M A) (k : A -> M B) : M B :=
  fun out =>
    match c out with
    | (Return a, out') => k a out'
    | (Raise e, out') => (Raise e, out')
    end.

Definition raise {A} (e : exn) : M A := fun out => (Raise e, out).

Definition print (l : line) : M unit := fun out => (Return tt, out ++ [l]).

Definition result {A} (r : outcome A * console) : outcome A := fst r.
Definition printed {A} (r : outcome A * console) : console := snd r.

Definition returns {A} (o : outcome A) : bool :=
  match o with Return _ => true | Raise _ => false end.

End Py.

Import Py.

Declare Scope py_scope.
Delimit Scope py_scope with py.
Notation "x <- c ;; k" := (bind c (fun x => k))
  (at level 61, c at next level, right associativity) : py_scope.
Notation "c ;; k" := (bind c (fun _ => k))
  (at level 61, right associativity) : py_scope.

(** ** Binary64: the script as CPython runs it on floats *)

Module Binary64.

Local Open Scope float_scope.
Local Open Scope py_scope.

(** The tuple [(A, a1, a2, B, b1, b2)] that [GetExpData] returns. *)
Record params : Type := Params {
  p_A : float; p_a1 : float; p_a2 : float;
  p_B : float; p_b1 : float; p_b2 : float
}.

(** The branch of [GetExpData] selected by [data_i]: the line it prints
    and the two triples it binds (lines 85-112). *)
Definition select (data_i : Z) : M params :=
  if (data_i =? 0)%Z then
    print [Lit "This data corresponds to x = 0.0142, T = 1.7 K."] ;;
    ret (Params 0.032 0.03 (0.03 - 0.032) 0.0066 0.0075 (0.0075 - 0.0066))
  else if (data_i =? 1)%Z then
    print [Lit "This data corresponds to x = 0.024, T = 1.7 K."] ;;
    ret (Params 0.0244 0.02 (0.02 - 0.0244) 0.006 0.0025 (0.0025 - 0.006))
  else if (data_i =? 2)%Z then
    print [Lit "This data corresponds to x = 0.024, T = 6 K."] ;;
    ret (Params 0.024 0.018 (0.018 - 0.024) 0.0078 0.0009 (0.0009 - 0.0078))
  else if (data_i =? 3)%Z then
    print [Lit "This data corresponds to x = 0.024, T = 12 K."] ;;
    ret (Params 0.022 0.0175 (0.0175 - 0.022) 0.0097 0.0022 (0.0022 - 0.0097))
  else
    print [Lit "Error in GetExpData:"] ;;
    raise (ValueError
      "Only 4 experimental datasets, data_i != 0, 1, 2, 3 unsupported.").

(** [GetExpData(data_i, scale_factor)].  [data_i] is an [int];
    [scale_factor] is a double (an [int] such as the default [1] is
    converted to the double of the same value by [float * int]). *)
Definition GetExpData (data_i : Z) (scale_factor : float) : M params :=
  print [Lit "Bauer PbEuSe data set "; StrInt data_i;
         Lit " selected with scale factor "; StrFloat scale_factor;
         Lit "."] ;;
  p <- select data_i ;;
  ret (Params (p_A p * scale_factor) (p_a1 p * scale_factor)
              (p_a2 p * scale_factor) (p_B p * scale_factor)
              (p_b1 p * scale_factor) (p_b2 p * scale_factor)).

(** The default value of the keyword argument [scale_factor]. *)
Definition default_scale_factor : float := 1.

(** The data sets the driver loops over (line 136); the indices
    [GetExpData] accepts. *)
Definition dataset_indices : list Z := [0; 1; 2; 3]%Z.

(** What the caller sees when it compares the returned tuple with
    [(0, 0, 0, 0, 0, 0)]: Python's [==] on tuples is [==] on each pair of
    components, IEEE equality for numbers. *)
Definition eq_zeros (p : params) : bool :=
  (p_A p =? 0) && (p_a1 p =? 0) && (p_a2 p =? 0)
  && (p_B p =? 0) && (p_b1 p =? 0) && (p_b2 p =? 0).

(** [math.isclose(a, b)] with its default tolerances, [rel_tol = 1e-09]
    and [abs_tol = 0.0]: the reading of "within floating tolerance". *)
Definition isclose (a b : float) : bool :=
  let rel := 1e-09 * (if abs a <? abs b then abs b else abs a) in
  abs (a - b) <=? (if rel <? 0.0 then 0.0 else rel).

Definition isclose_params (p q : params) : bool :=
  isclose (p_A p) (p_A q) && isclose (p_a1 p) (p_a1 q)
  && isclose (p_a2 p) (p_a2 q) && isclose (p_B p) (p_B q)
  && isclose (p_b1 p) (p_b1 q) && isclose (p_b2 p) (p_b2 q).

(** The tuple the specification documents for [GetExpData(0)]. *)
Definition documented_row_0 : params :=
  Params 0.032 0.03 (-0.002) 0.0066 0.0075 0.0009000000000000001.

(** Every component multiplied by the scale factor (line 115). *)
Definition scaled (base : params) (s : float) : params :=
  Params (p_A base * s) (p_a1 base * s) (p_a2 base * s)
         (p_B base * s) (p_b1 base * s) (p_b2 base * s).

(** The first line [GetExpData] prints (line 83). *)
Definition banner (data_i : Z) (scale_factor : float) : line :=
  [Lit "Bauer PbEuSe data set "; StrInt data_i;
   Lit " selected with scale factor "; StrFloat scale_factor; Lit "."].

(** Every component with its sign flipped. *)
Definition negated (p : params) : params :=
  Params (- p_A p) (- p_a1 p) (- p_a2 p) (- p_B p) (- p_b1 p) (- p_b2 p).

(** The mean-field value [A] of an outcome, as sign, significand and
    exponent. *)
Definition exact_A (o : outcome params) : spec_float :=
  match o with
  | Return p => Prim2SF (p_A p)
  | Raise _ => S754_nan
  end.

(** *** [pow] on floats

    [pow(x, 2)] with a float [x] is [float.__pow__], CPython's [float_pow]
    (Objects/floatobject.c), here for the positive integer exponents the
    script uses.  The special cases come first; a finite positive base
    other than 1 goes to the C library, and a result that left the double
    range is reported as [OverflowError]. *)

(** [DOUBLE_IS_ODD_INTEGER] on an integral exponent. *)
Definition is_odd_integer (iw : positive) : bool :=
  match iw with xO _ => false | _ => true end.

(** The C library's [pow] on a finite base.  The C standard leaves its
    last bit to the library, so a value is fixed here: the exact power of
    the significand, rounded once to nearest-even.  A library may return
    the neighbouring double where the exact power lies close to the middle
    of two doubles (glibc does for some squares); the range, the sign and
    the overflow of the result are the same for every library. *)
Definition libm_pow (iv : float) (iw : positive) : float :=
  match Prim2SF iv with
  | S754_finite s m e =>
      SF2Prim (binary_round_aux prec emax (s && is_odd_integer iw)
                 (Z.pos (m ^ iw)) (Z.pos iw * e) loc_Exact)
  | _ => iv
  end.

Definition erange : exn :=
  OverflowError "(34, 'Numerical result out of range')".

Definition float_pow (iv : float) (iw : positive) : M float :=
  if is_nan iv then ret iv
  else if is_infinity iv then ret (if is_odd_integer iw then iv else abs iv)
  else if iv =? 0 then ret (if is_odd_integer iw then iv else 0)
  else
    let negate_result := (iv <? 0) && is_odd_integer iw in
    let iv := abs iv in
    if iv =? 1 then ret (if negate_result then -1 else 1)
    else
      let ix := libm_pow iv iw in
      let ix := if negate_result then - ix else ix in
      if is_infinity ix then raise erange else ret ix.

(** [np.sqrt] on a double is the IEEE square root; it never raises (a
    negative argument gives [nan] and a warning). *)
Definition np_sqrt (v : float) : float := PrimFloat.sqrt v.

(** [Eg_func(x, T)] (line 35).  Operands are evaluated left to right, so
    the three calls of [pow] happen in this order; the arithmetic after
    [np.sqrt] is numpy's float64, again binary64. *)
Definition Eg_func (x T : float) : M float :=
  x2 <- float_pow x 2 ;;
  x3 <- float_pow x 3 ;;
  d2 <- float_pow (T - 4.2) 2 ;;
  ret ((72 - 710 * x + 2440 * x2 - 4750 * x3 - 22.5
        + np_sqrt (506 + 0.1 * d2)) / 1000).

(** The temperature of each data set (line 134) and the limits of the
    composition sweep (line 160), as the driver passes them on with
    [Eg_func] (lines 161-163). *)
Definition Temp : list float := [1.7; 1.7; 6; 12].

Definition x_lim : float * float := (0, 0.5).

(** The module-level gap of the script (lines 39-41): [x = 0.1],
    [T = 10], [Eg = Eg_func(x, T)]. *)
Definition Eg : M float := Eg_func 0.1 10.

End Binary64.

(** ** Exact: the gap formula over the real numbers

    What line 35 denotes when no operation rounds and no power overflows.
    It is not what the program computes; it serves to bracket the value
    the program approximates and to bound the argument of the square
    root. *)

Module Exact.

Local Open Scope R_scope.

(** [Eg_func(x, T)] (line 35) with [pow] and [np.sqrt] read as the real
    power and square root. *)
Definition Eg_func (x T : R) : R :=
  (72 - 710 * x + 2440 * pow x 2 - 4750 * pow x 3 - 22.5
   + sqrt (506 + 0.1 * pow (T - 4.2) 2)) / 1000.

(** The argument [np.sqrt] receives. *)
Definition sqrt_arg (T : R) : R := 506 + 0.1 * pow (T - 4.2) 2.

End Exact.

(** * Properties *)

(** ** The data set selector *)

Section GetExpData_facts.

Import Binary64.

(** Membership in the four indices, as the chain of comparisons of
    [GetExpData] sees it. *)
Lemma dataset_indices_cases (data_i : Z) :
  In data_i dataset_indices ->
  data_i = 0%Z \/ data_i = 1%Z \/ data_i = 2%Z \/ data_i = 3%Z.
Proof.
  unfold dataset_indices. simpl. intuition.
Qed.

Lemma not_dataset_index_eqb (data_i : Z) :
  ~ In data_i dataset_indices ->
  (data_i =? 0)%Z = false /\ (data_i =? 1)%Z = false /\
  (data_i =? 2)%Z = false /\ (data_i =? 3)%Z = false.
Proof.
  unfold dataset_indices. simpl. intros H.
  repeat split; apply Z.eqb_neq; intros ->; apply H; tauto.
Qed.

End GetExpData_facts.

Section GetExpData_claims.

Import Binary64.
Local Open Scope float_scope.

(** C1.  For every integer [data_i] outside {0,1,2,3} (4 and -1 among
    them) and every scale factor, [GetExpData] raises [ValueError] with
    the message that begins "Only 4 experimental datasets"; it returns no
    tuple at all, so no default or fallback one.  Its two lines of output
    are printed before the exception leaves. *)
Theorem GetExpData_invalid_index
    (data_i : Z) (scale_factor : float) (out : console) :
  ~ In data_i dataset_indices ->
  exists msg,
    result (GetExpData data_i scale_factor out) = Raise (ValueError msg)
    /\ msg = "Only 4 experimental datasets, data_i != 0, 1, 2, 3 unsupported."%string
    /\ String.prefix "Only 4 experimental datasets" msg = true
    /\ returns (result (GetExpData data_i scale_factor out)) = false
    /\ printed (GetExpData data_i scale_factor out)
       = out ++ [[Lit "Bauer PbEuSe data set "; StrInt data_i;
                  Lit " selected with scale factor "; StrFloat scale_factor;
                  Lit "."];
                 [Lit "Error in GetExpData:"]].
Proof.
  intros Hout.
  destruct (not_dataset_index_eqb _ Hout) as (H0 & H1 & H2 & H3).
  eexists. unfold GetExpData, select.
  rewrite H0, H1, H2, H3.
  repeat split; try reflexivity.
  cbn. rewrite <- app_assoc. reflexivity.
Qed.

Lemma GetExpData_rejects_4 :
  exists msg,
    result (GetExpData 4 1 []) = Raise (ValueError msg)
    /\ msg = "Only 4 experimental datasets, data_i != 0, 1, 2, 3 unsupported."%string
    /\ String.prefix "Only 4 experimental datasets" msg = true
    /\ returns (result (GetExpData 4 1 [])) = false
    /\ printed (GetExpData 4 1 [])
       = [] ++ [[Lit "Bauer PbEuSe data set "; StrInt 4;
                 Lit " selected with scale factor "; StrFloat 1;
                 Lit "."];
                [Lit "Error in GetExpData:"]].
Proof.
  apply (GetExpData_invalid_index 4 1 []).
  unfold dataset_indices. simpl. lia.
Defined.

(** The other index the specification names, [-1], is rejected the same
    way, whatever the scale factor. *)
Example GetExpData_rejects_minus_1 :
  result (GetExpData (-1) 10 [])
  = Raise (ValueError
      "Only 4 experimental datasets, data_i != 0, 1, 2, 3 unsupported.").
Proof. reflexivity. Qed.

(** C3.  [GetExpData(0)] with the default scale factor returns a tuple
    each of whose six components is within floating-point tolerance of
    (0.032, 0.03, -0.002, 0.0066, 0.0075, 0.0009000000000000001).  Four
    components are these doubles to the bit; the two derived ones are
    [0.03 - 0.032] and [0.0075 - 0.0066] as binary64 computes them. *)
Theorem GetExpData_0_default (out : console) :
  exists p,
    result (GetExpData 0 default_scale_factor out) = Return p
    /\ isclose_params p documented_row_0 = true
    /\ p_A p = 0.032 /\ p_a1 p = 0.03 /\ p_B p = 0.0066 /\ p_b1 p = 0.0075
    /\ p_a2 p = -0.0020000000000000018
    /\ p_b2 p = 0.0008999999999999998.
Proof.
  eexists. split; [reflexivity|].
  repeat split; vm_compute; reflexivity.
Qed.

(** C4.  For every valid index and every scale factor [s], each of the six
    values [GetExpData(i, s)] returns is the base value of data set [i]
    (what the selected branch binds, which is also what the call with the
    default factor returns) multiplied by [s]. *)
Theorem GetExpData_scales (data_i : Z) (s : float) (out : console) :
  In data_i dataset_indices ->
  exists base,
    result (select data_i []) = Return base
    /\ result (GetExpData data_i default_scale_factor out) = Return base
    /\ result (GetExpData data_i s out) = Return (scaled base s).
Proof.
  intros Hin.
  destruct (dataset_indices_cases _ Hin) as [-> | [-> | [-> | ->]]];
    eexists; (split; [vm_compute; reflexivity|]);
    (split; [vm_compute; reflexivity | reflexivity]).
Qed.

(** [GetExpData(1, scale_factor=10)]: each base value of data set 1
    times 10. *)
Lemma GetExpData_1_scale_10 :
  exists base,
    result (select 1 []) = Return base
    /\ result (GetExpData 1 default_scale_factor []) = Return base
    /\ result (GetExpData 1 10 []) = Return (scaled base 10).
Proof.
  apply (GetExpData_scales 1 10 []).
  unfold dataset_indices. simpl. lia.
Defined.

Example GetExpData_1_scale_10_values :
  result (GetExpData 1 10 [])
  = Return (Params (0.0244 * 10) (0.02 * 10) ((0.02 - 0.0244) * 10)
                   (0.006 * 10) (0.0025 * 10) ((0.0025 - 0.006) * 10)).
Proof. reflexivity. Qed.

(** C5.  For every valid index, the tuple returned with scale factor 1
    satisfies [a2 = a1 - A] and [b2 = b1 - B]. *)
Theorem GetExpData_fluctuations (data_i : Z) (out : console) :
  In data_i dataset_indices ->
  exists p,
    result (GetExpData data_i 1 out) = Return p
    /\ p_a2 p = p_a1 p - p_A p
    /\ p_b2 p = p_b1 p - p_B p.
Proof.
  intros Hin.
  destruct (dataset_indices_cases _ Hin) as [-> | [-> | [-> | ->]]];
    eexists; (split; [vm_compute; reflexivity|]);
    split; vm_compute; reflexivity.
Qed.

Lemma GetExpData_fluctuations_2 :
  exists p,
    result (GetExpData 2 1 []) = Return p
    /\ p_a2 p = p_a1 p - p_A p
    /\ p_b2 p = p_b1 p - p_B p.
Proof.
  apply (GetExpData_fluctuations 2 []).
  unfold dataset_indices. simpl. lia.
Defined.

(** C6.  For every valid index, [GetExpData] with scale factor 0 returns
    a tuple that compares equal to (0, 0, 0, 0, 0, 0): all six parameters
    are zero. *)
Theorem GetExpData_scale_zero (data_i : Z) (out : console) :
  In data_i dataset_indices ->
  exists p,
    result (GetExpData data_i 0 out) = Return p
    /\ eq_zeros p = true
    /\ abs (p_A p) = 0 /\ abs (p_a1 p) = 0 /\ abs (p_a2 p) = 0
    /\ abs (p_B p) = 0 /\ abs (p_b1 p) = 0 /\ abs (p_b2 p) = 0.
Proof.
  intros Hin.
  destruct (dataset_indices_cases _ Hin) as [-> | [-> | [-> | ->]]];
    eexists; (split; [vm_compute; reflexivity|]);
    repeat split; vm_compute; reflexivity.
Qed.

Lemma GetExpData_scale_zero_3 :
  exists p,
    result (GetExpData 3 0 []) = Return p
    /\ eq_zeros p = true
    /\ abs (p_A p) = 0 /\ abs (p_a1 p) = 0 /\ abs (p_a2 p) = 0
    /\ abs (p_B p) = 0 /\ abs (p_b1 p) = 0 /\ abs (p_b2 p) = 0.
Proof.
  apply (GetExpData_scale_zero 3 []).
  unfold dataset_indices. simpl. lia.
Defined.

End GetExpData_claims.

(** ** The gap formula over the reals *)

Section Exact_facts.

Local Open Scope R_scope.


Lemma Eg_func_sqrt_arg (x T : R) :
  Exact.Eg_func x T
  = (72 - 710 * x + 2440 * pow x 2 - 4750 * pow x 3 - 22.5
     + sqrt (Exact.sqrt_arg T)) / 1000.
Proof. reflexivity. Qed.

(** Bracketing a square root between two rationals. *)
Lemma sqrt_between (a lo hi : R) :
  0 <= lo -> lo * lo < a -> a < hi * hi -> 0 <= hi ->
  lo < sqrt a < hi.
Proof.
  intros Hlo Hl Hh Hhi.
  assert (Ha : 0 <= a) by nra.
  split.
  - rewrite <- (sqrt_square lo Hlo). apply sqrt_lt_1; nra.
  - rewrite <- (sqrt_square hi Hhi). apply sqrt_lt_1; nra.
Qed.

Lemma sqrt_arg_at_10 : Exact.sqrt_arg 10 = 509.364.
Proof. unfold Exact.sqrt_arg. simpl. lra. Qed.

Lemma Eg_func_at_01_10 :
  0.020719 < Exact.Eg_func 0.1 10 < 0.02072.
Proof.
  rewrite Eg_func_sqrt_arg, sqrt_arg_at_10.
  assert (H : 22.569 < sqrt 509.364 < 22.57)
    by (apply sqrt_between; lra).
  simpl. lra.
Qed.

End Exact_facts.

(** ** The gap function on doubles *)

Section Binary64_facts.

Import Binary64.
Local Open Scope float_scope.

Ltac split_ifs :=
  repeat match goal with
         | |- context [if ?c then _ else _] => destruct c
         end.

(** [pow] prints nothing and does not look at the console. *)
Lemma float_pow_pure (iv : float) (iw : positive) (out : console) :
  float_pow iv iw out = (result (float_pow iv iw []), out).
Proof.
  unfold float_pow, ret, raise, result. cbv zeta.
  split_ifs; reflexivity.
Qed.

(** The only exception [pow] raises here is the range error. *)
Lemma float_pow_outcome (iv : float) (iw : positive) :
  result (float_pow iv iw []) = Raise erange
  \/ exists v, result (float_pow iv iw []) = Return v.
Proof.
  unfold float_pow, ret, raise, result. cbv zeta.
  split_ifs; simpl; eauto.
Qed.

(** [Eg_func] step by step: it fails at the first power that overflows
    and otherwise returns the value of the arithmetic expression. *)
Lemma Eg_func_run (x T : float) (out : console) :
  Eg_func x T out =
  (match result (float_pow x 2 []) with
   | Raise e => Raise e
   | Return x2 =>
     match result (float_pow x 3 []) with
     | Raise e => Raise e
     | Return x3 =>
       match result (float_pow (T - 4.2) 2 []) with
       | Raise e => Raise e
       | Return d2 =>
         Return ((72 - 710 * x + 2440 * x2 - 4750 * x3 - 22.5
                  + np_sqrt (506 + 0.1 * d2)) / 1000)
       end
     end
   end, out).
Proof.
  unfold Eg_func, bind.
  rewrite (float_pow_pure x 2 out).
  destruct (result (float_pow x 2 [])); [|reflexivity].
  rewrite (float_pow_pure x 3 out).
  destruct (result (float_pow x 3 [])); [|reflexivity].
  rewrite (float_pow_pure (T - 4.2) 2 out).
  destruct (result (float_pow (T - 4.2) 2 [])); reflexivity.
Qed.


(** The absolute value forgets the sign and nothing else. *)
Lemma abs_abs (v : float) : abs (abs v) = abs v.
Proof.
  apply Prim2SF_inj. rewrite !abs_spec.
  destruct (Prim2SF v); reflexivity.
Qed.

Lemma SFcompare_refl (p : spec_float) :
  p <> S754_nan -> SFcompare p p = Some Eq.
Proof.
  destruct p as [s | s | | s m e]; intros H; try congruence.
  - reflexivity.
  - destruct s; reflexivity.
  - simpl. destruct s; rewrite Z.compare_refl.
    + rewrite Pos.compare_cont_refl. reflexivity.
    + rewrite Pos.compare_cont_refl. reflexivity.
Qed.

Lemma is_nan_abs (v : float) : is_nan (abs v) = is_nan v.
Proof.
  unfold is_nan. rewrite !eqb_spec, abs_spec. unfold SFeqb.
  destruct (Prim2SF v) as [s | s | | s m e] eqn:E; try reflexivity;
    rewrite !SFcompare_refl; simpl; congruence.
Qed.

Lemma is_zero_abs (v : float) : (abs v =? 0) = (v =? 0).
Proof.
  rewrite !eqb_spec, abs_spec.
  change (Prim2SF 0) with (S754_zero false).
  destruct (Prim2SF v) as [[] | [] | | [] m e]; reflexivity.
Qed.

Lemma is_nan_eq (v : float) : is_nan v = true -> v = nan.
Proof.
  intros H. apply Prim2SF_inj. unfold Prim2SF at 1. rewrite H. reflexivity.
Qed.

(** A square does not see the sign of its base: [float_pow] tests the
    base for [nan], infinity and zero, takes its absolute value, and never
    negates the result of an even power. *)
Lemma float_pow_2_abs (v : float) (out : console) :
  float_pow v 2 out = float_pow (abs v) 2 out.
Proof.
  unfold float_pow. cbv zeta.
  rewrite is_nan_abs. unfold is_infinity. rewrite !abs_abs, is_zero_abs.
  change (is_odd_integer 2) with false. rewrite !andb_false_r.
  destruct (is_nan v) eqn:Hn.
  - apply is_nan_eq in Hn. subst v. reflexivity.
  - reflexivity.
Qed.

(** The temperature enters [Eg_func] through the magnitude of the double
    [T - 4.2] only. *)
Lemma Eg_func_same_magnitude (x T1 T2 : float) (out : console) :
  abs (T1 - 4.2) = abs (T2 - 4.2) ->
  Eg_func x T1 out = Eg_func x T2 out.
Proof.
  intros H. rewrite !Eg_func_run.
  rewrite (float_pow_2_abs (T1 - 4.2)), (float_pow_2_abs (T2 - 4.2)), H.
  reflexivity.
Qed.

End Binary64_facts.

(** ** The gap model: claims *)

Section Eg_func_claims.

Local Open Scope R_scope.

(** C2, as stated, fails: not every pair of arguments gets a value.  At
    [T = 1e200] the square of [T - 4.2] leaves the double range and
    [Eg_func] raises instead of returning. *)
Lemma Eg_func_no_value_at_1e200_K :
  result (Binary64.Eg_func 0.1%float 1e200%float [])
  = Raise (OverflowError "(34, 'Numerical result out of range')")
  /\ returns (result (Binary64.Eg_func 0.1%float 1e200%float [])) = false.
Proof. split; vm_compute; reflexivity. Qed.

(** C2, amended.  For every composition [x] and temperature [T], when none
    of [pow(x, 2)], [pow(x, 3)], [pow(T - 4.2, 2)] overflows, [Eg_func]
    returns exactly the double
    (72 - 710 x + 2440 x2 - 4750 x3 - 22.5 + sqrt(506 + 0.1 d2)) / 1000,
    evaluated left to right in binary64, with [x2], [x3], [d2] the values
    of the three powers; when one of them overflows it returns nothing and
    raises [OverflowError]. *)
Theorem Eg_func_evaluates_documented_formula
    (x T : float) (out : console) :
  result (Binary64.Eg_func x T out)
  = match result (Binary64.float_pow x 2 []),
          result (Binary64.float_pow x 3 []),
          result (Binary64.float_pow (T - 4.2)%float 2 []) with
    | Return x2, Return x3, Return d2 =>
        Return ((72 - 710 * x + 2440 * x2 - 4750 * x3 - 22.5
                 + Binary64.np_sqrt (506 + 0.1 * d2)) / 1000)%float
    | _, _, _ => Raise Binary64.erange
    end.
Proof.
  rewrite Eg_func_run. unfold result at 1. simpl fst.
  destruct (float_pow_outcome x 2) as [-> | [x2 ->]]; [reflexivity|].
  destruct (float_pow_outcome x 3) as [-> | [x3 ->]]; [reflexivity|].
  destruct (float_pow_outcome (T - 4.2)%float 2) as [-> | [d2 ->]];
    reflexivity.
Qed.

(** C7, as the specification has it, fails: the value of the formula at
    [x = 0.1], [T = 10] is positive, about 0.0207 eV, and so more than
    0.0249 eV away from -0.0042; on doubles it is 0.020719093911807807,
    which is not close to -0.0042. *)
Lemma Eg_func_01_10_is_not_minus_0042 :
  0.0249 < Rabs (Exact.Eg_func 0.1 10 - (-0.0042))
  /\ result (Binary64.Eg []) = Return 0.020719093911807807%float
  /\ Binary64.isclose 0.020719093911807807%float (-0.0042)%float = false.
Proof.
  split; [|split; vm_compute; reflexivity].
  pose proof Eg_func_at_01_10 as [Hlo _].
  rewrite Rabs_right; lra.
Qed.

(** C7, amended.  [Eg_func(0.1, 10)] is the value of the documented
    formula at [x = 0.1], [T = 10], which is about 0.0207 eV: between
    0.020719 and 0.02072, and 0.020719093911807807 as a double. *)
Theorem Eg_func_01_10_value :
  Exact.Eg_func 0.1 10 = (-1.85 + sqrt 509.364) / 1000
  /\ 0.020719 < Exact.Eg_func 0.1 10 < 0.02072
  /\ result (Binary64.Eg []) = Return 0.020719093911807807%float.
Proof.
  split; [|split; [exact Eg_func_at_01_10 | vm_compute; reflexivity]].
  rewrite Eg_func_sqrt_arg, sqrt_arg_at_10. simpl pow. lra.
Qed.



(** C10, read on doubles, fails: at [x = 0.1] the gaps at [T = 43] and at
    [8.4 - 43] differ in the last digit, because [8.4 - T] is rounded
    before 4.2 is subtracted. *)
Lemma Eg_func_43_not_mirrored :
  result (Binary64.Eg_func 0.1%float 43%float [])
  = Return 0.023773114564783107%float
  /\ result (Binary64.Eg_func 0.1%float (8.4 - 43)%float [])
     = Return 0.023773114564783111%float
  /\ (0.023773114564783107 =? 0.023773114564783111)%float = false.
Proof. repeat split; vm_compute; reflexivity. Qed.

(** C10, amended.  For every composition [x] and every temperature [T]
    for which the doubles [(8.4 - T) - 4.2] and [T - 4.2] have the same
    magnitude, [Eg_func(x, T)] and [Eg_func(x, 8.4 - T)] are the same:
    the same double, or the same exception.  [T] enters only through the
    square of [T - 4.2], and that square does not see the sign. *)
Theorem Eg_func_mirrored_about_4_2 (x T : float) (out : console) :
  abs ((8.4 - T) - 4.2)%float = abs (T - 4.2)%float ->
  Binary64.Eg_func x (8.4 - T)%float out = Binary64.Eg_func x T out.
Proof.
  intros H. apply Eg_func_same_magnitude. exact H.
Qed.

Lemma Eg_func_mirrored_at_10 :
  Binary64.Eg_func 0.1%float (8.4 - 10)%float []
  = Binary64.Eg_func 0.1%float 10%float [].
Proof.
  apply (Eg_func_mirrored_about_4_2 0.1%float 10%float []).
  vm_compute. reflexivity.
Defined.

(** The condition holds at every temperature the script uses: the gap at
    each [Temp[data_i]] is the gap at its mirror image, for every
    composition. *)
Lemma Eg_func_mirrored_at_Temp (x T : float) (out : console) :
  In T Binary64.Temp ->
  Binary64.Eg_func x (8.4 - T)%float out = Binary64.Eg_func x T out.
Proof.
  intros HT. apply Eg_func_same_magnitude.
  unfold Binary64.Temp in HT. simpl in HT.
  destruct HT as [<- | [<- | [<- | [<- | []]]]]; vm_compute; reflexivity.
Qed.

End Eg_func_claims.

(** * Further properties *)

(** ** Binary64 arithmetic *)

Section Binary64_arithmetic.

Local Open Scope float_scope.

(** The sign of a rounded result is the sign it was given. *)
Lemma binary_round_aux_negb (sg : bool) (m e : Z) (l : location) :
  binary_round_aux prec emax (negb sg) m e l
  = SFopp (binary_round_aux prec emax sg m e l).
Proof.
  unfold binary_round_aux.
  destruct (shr_fexp prec emax m e l) as [mrs' e'].
  destruct (shr_fexp prec emax _ e' loc_Exact) as [mrs'' e''].
  destruct (shr_m mrs''); try reflexivity.
  destruct (e'' <=? emax - prec)%Z; reflexivity.
Qed.

Lemma SFmul_opp_r (a b : spec_float) :
  SFmul prec emax a (SFopp b) = SFopp (SFmul prec emax a b).
Proof.
  destruct a as [sa | sa | | sa ma ea], b as [sb | sb | | sb mb eb];
    try reflexivity; try (destruct sa, sb; reflexivity).
  change (binary_round_aux prec emax (xorb sa (negb sb))
            (Z.pos (ma * mb)) (ea + eb) loc_Exact
          = SFopp (binary_round_aux prec emax (xorb sa sb)
                     (Z.pos (ma * mb)) (ea + eb) loc_Exact)).
  rewrite <- binary_round_aux_negb. f_equal. destruct sa, sb; reflexivity.
Qed.

(** Multiplying by the opposite gives the opposite, rounding included. *)
Lemma mul_opp_r (x s : float) : x * (- s) = - (x * s).
Proof.
  apply Prim2SF_inj.
  rewrite opp_spec, !mul_spec, opp_spec.
  apply SFmul_opp_r.
Qed.

(** [nan] absorbs additions. *)
Lemma add_nan_l (y : float) : nan + y = nan.
Proof.
  apply Prim2SF_inj. rewrite add_spec.
  change (Prim2SF nan) with S754_nan. reflexivity.
Qed.

Lemma add_nan_r (y : float) : y + nan = nan.
Proof.
  apply Prim2SF_inj. rewrite add_spec.
  change (Prim2SF nan) with S754_nan. destruct (Prim2SF y); reflexivity.
Qed.

End Binary64_arithmetic.

(** ** More on the data set selector *)

Section GetExpData_more.

Import Binary64.
Local Open Scope float_scope.

(** X1.  [GetExpData] returns exactly for the indices 0, 1, 2 and 3,
    whatever the scale factor (nothing about the scale factor is checked)
    and whatever was printed before. *)
Theorem GetExpData_returns_iff_valid
    (data_i : Z) (scale_factor : float) (out : console) :
  returns (result (GetExpData data_i scale_factor out)) = true
  <-> In data_i dataset_indices.
Proof.
  split.
  - intros Hret.
    destruct (Z.eq_dec data_i 0) as [-> | N0]; [simpl; tauto|].
    destruct (Z.eq_dec data_i 1) as [-> | N1]; [simpl; tauto|].
    destruct (Z.eq_dec data_i 2) as [-> | N2]; [simpl; tauto|].
    destruct (Z.eq_dec data_i 3) as [-> | N3]; [simpl; tauto|].
    exfalso. revert Hret. unfold GetExpData, select.
    apply Z.eqb_neq in N0, N1, N2, N3. rewrite N0, N1, N2, N3.
    discriminate.
  - intros Hin.
    destruct (dataset_indices_cases _ Hin) as [-> | [-> | [-> | ->]]];
      reflexivity.
Qed.

(** X2.  Every call of [GetExpData] adds exactly two lines to the console,
    after everything printed before: first the banner with the index and
    the scale factor it was given, then one more line (the description of
    the data set, or "Error in GetExpData:" before the exception). *)
Theorem GetExpData_prints_two_lines
    (data_i : Z) (scale_factor : float) (out : console) :
  exists l : line,
    printed (GetExpData data_i scale_factor out)
    = out ++ [banner data_i scale_factor; l]
    /\ (returns (result (GetExpData data_i scale_factor out)) = false ->
        l = [Lit "Error in GetExpData:"]).
Proof.
  unfold GetExpData, select, banner.
  destruct (data_i =? 0)%Z; [|destruct (data_i =? 1)%Z;
    [|destruct (data_i =? 2)%Z; [|destruct (data_i =? 3)%Z]]];
    eexists; (split; [cbn; rewrite <- app_assoc; reflexivity|]);
    cbn; intros H; first [discriminate H | reflexivity].
Qed.

(** X3.  Flipping the sign of the scale factor flips the sign of every
    returned parameter and changes nothing else: the same indices are
    rejected, with the same exception. *)
Theorem GetExpData_opposite_scale
    (data_i : Z) (scale_factor : float) (out : console) :
  result (GetExpData data_i (- scale_factor) out)
  = match result (GetExpData data_i scale_factor out) with
    | Return p => Return (negated p)
    | Raise e => Raise e
    end.
Proof.
  unfold GetExpData, select.
  destruct (data_i =? 0)%Z; [|destruct (data_i =? 1)%Z;
    [|destruct (data_i =? 2)%Z; [|destruct (data_i =? 3)%Z]]];
    cbn; unfold negated; cbn; rewrite ?mul_opp_r; reflexivity.
Qed.

(** X4.  A scale factor that is not a number is accepted like any other:
    for every valid index the call returns, and all six parameters are
    [nan]. *)
Theorem GetExpData_nan_scale (data_i : Z) (out : console) :
  In data_i dataset_indices ->
  result (GetExpData data_i nan out)
  = Return (Params nan nan nan nan nan nan).
Proof.
  intros Hin.
  destruct (dataset_indices_cases _ Hin) as [-> | [-> | [-> | ->]]];
    vm_compute; reflexivity.
Qed.

Lemma GetExpData_nan_scale_0 :
  result (GetExpData 0 nan []) = Return (Params nan nan nan nan nan nan).
Proof.
  apply (GetExpData_nan_scale 0 []).
  unfold dataset_indices. simpl. lia.
Defined.

(** X5.  In each of the four data sets the tabulated values are positive
    and [a1] is below [A], so the fluctuation term [a2] is negative; [b2]
    is negative too except in data set 0, where [b1] exceeds [B]. *)
Theorem GetExpData_table_signs (data_i : Z) (out : console) :
  In data_i dataset_indices ->
  exists p,
    result (GetExpData data_i default_scale_factor out) = Return p
    /\ (0 <? p_a1 p) = true /\ (p_a1 p <? p_A p) = true
    /\ (p_a2 p <? 0) = true
    /\ (0 <? p_B p) = true /\ (0 <? p_b1 p) = true
    /\ (p_b2 p <? 0) = negb (data_i =? 0)%Z
    /\ (0 <? p_b2 p) = (data_i =? 0)%Z.
Proof.
  intros Hin.
  destruct (dataset_indices_cases _ Hin) as [-> | [-> | [-> | ->]]];
    eexists; (split; [vm_compute; reflexivity|]);
    repeat split; vm_compute; reflexivity.
Qed.

Lemma GetExpData_table_signs_0 :
  exists p,
    result (GetExpData 0 default_scale_factor []) = Return p
    /\ (0 <? p_a1 p) = true /\ (p_a1 p <? p_A p) = true
    /\ (p_a2 p <? 0) = true
    /\ (0 <? p_B p) = true /\ (0 <? p_b1 p) = true
    /\ (p_b2 p <? 0) = negb (0 =? 0)%Z
    /\ (0 <? p_b2 p) = (0 =? 0)%Z.
Proof.
  apply (GetExpData_table_signs 0 []).
  unfold dataset_indices. simpl. lia.
Defined.

(** X6.  No two data sets share their parameters: two different valid
    indices give different tuples (with the default scale factor); the
    values of [A] alone tell the four rows apart. *)
Theorem GetExpData_rows_distinct (i j : Z) (out : console) :
  In i dataset_indices -> In j dataset_indices -> i <> j ->
  result (GetExpData i default_scale_factor out)
  <> result (GetExpData j default_scale_factor out).
Proof.
  intros Hi Hj Hij H. apply (f_equal exact_A) in H.
  destruct (dataset_indices_cases _ Hi) as [-> | [-> | [-> | ->]]];
    destruct (dataset_indices_cases _ Hj) as [-> | [-> | [-> | ->]]];
    try (apply Hij; reflexivity); vm_compute in H; discriminate H.
Qed.

Lemma GetExpData_rows_distinct_1_2 :
  result (GetExpData 1 default_scale_factor [])
  <> result (GetExpData 2 default_scale_factor []).
Proof.
  apply (GetExpData_rows_distinct 1 2 []).
  - unfold dataset_indices. simpl. lia.
  - unfold dataset_indices. simpl. lia.
  - lia.
Defined.

End GetExpData_more.

(** ** More on the gap function on doubles *)

Section Binary64_more.

Import Binary64.
Local Open Scope float_scope.

(** X10.  An argument that is not a number is not rejected: with [nan] as
    composition or as temperature [Eg_func] returns [nan], unless [pow]
    overflows on the other argument, which raises as usual. *)
Theorem Eg_func_nan_argument (x T : float) (out : console) :
  result (Eg_func nan T out)
  = match result (float_pow (T - 4.2) 2 []) with
    | Return _ => Return nan
    | Raise e => Raise e
    end
  /\ result (Eg_func x nan out)
     = match result (float_pow x 2 []), result (float_pow x 3 []) with
       | Return _, Return _ => Return nan
       | Raise e, _ => Raise e
       | Return _, Raise e => Raise e
       end.
Proof.
  split; rewrite Eg_func_run; unfold result at 1; simpl fst.
  - change (result (float_pow nan 2 [])) with (@Return float nan).
    change (result (float_pow nan 3 [])) with (@Return float nan).
    cbv iota beta.
    destruct (result (float_pow (T - 4.2) 2 [])) as [d2 | e]; [|reflexivity].
    rewrite add_nan_l. reflexivity.
  - destruct (result (float_pow x 2 [])) as [x2 | e]; [|reflexivity].
    destruct (result (float_pow x 3 [])) as [x3 | e]; [|reflexivity].
    change (np_sqrt nan) with nan. rewrite add_nan_r.
    reflexivity.
Qed.

(** X9.  For every data set of the driver's loop the temperature
    [Temp[data_i]] exists, and at that temperature [Eg_func] returns at
    both limits of the composition sweep, with opposite signs: the gap is
    open (positive) at [x = 0] and inverted (negative) at [x = 0.5]. *)
Theorem sweep_spans_gap_closure (data_i : Z) (out : console) :
  In data_i dataset_indices ->
  exists T g0 g1 : float,
    nth_error Temp (Z.to_nat data_i) = Some T
    /\ result (Eg_func (fst x_lim) T out) = Return g0
    /\ result (Eg_func (snd x_lim) T out) = Return g1
    /\ (0 <? g0) = true /\ (g1 <? 0) = true.
Proof.
  intros Hin.
  destruct (dataset_indices_cases _ Hin) as [-> | [-> | [-> | ->]]];
    do 3 eexists; (split; [reflexivity|]);
    rewrite !Eg_func_run;
    (split; [vm_compute; reflexivity|]);
    (split; [vm_compute; reflexivity|]);
    split; vm_compute; reflexivity.
Qed.

Lemma sweep_spans_gap_closure_3 :
  exists T g0 g1 : float,
    nth_error Temp (Z.to_nat 3) = Some T
    /\ result (Eg_func (fst x_lim) T []) = Return g0
    /\ result (Eg_func (snd x_lim) T []) = Return g1
    /\ (0 <? g0) = true /\ (g1 <? 0) = true.
Proof.
  apply (sweep_spans_gap_closure 3 []).
  unfold dataset_indices. simpl. lia.
Defined.

End Binary64_more.
